(** * Weather ETL pipeline: a shallow embedding of [dags/weather_etl_dag.py]

    The three task callables of the DAG ([fetch_weather], [transform_weather],
    [save_weather]) are embedded as computations in a state-and-exception
    monad over a [world] that holds what the Python code can observe or
    change: the wall clock, the file system, the network and the log.
    Python values that cross task boundaries (XCom values, JSON documents)
    are the inductive type [pyval]. *)

From Stdlib Require Import ZArith NArith List String Ascii Floats.PrimFloat Lia.
From stdpp Require Import base gmap strings pretty.

Open Scope string_scope.
Set Warnings "-register-all,-inexact-float".

(** ** Python values *)

(** The values that [response.json()] can return and that XCom carries between
    tasks.  A [dict] keeps its insertion order (it is what [json.dump] writes),
    so it is an association list; its keys are strings, as in JSON.  A [str]
    is a [string] whose characters stand for the code points 0..255. *)
Inductive pyval : Type :=
| PNone
| PBool (b : bool)
| PInt (n : Z)
| PFloat (f : float)
| PStr (s : string)
| PList (items : list pyval)
| PDict (entries : list (string * pyval)).

(** [bool(v)], the test behind [if not v]. *)
Definition truthy (v : pyval) : bool :=
  match v with
  | PNone => false
  | PBool b => b
  | PInt n => negb (n =? 0)%Z
  | PFloat f => negb (PrimFloat.eqb f 0%float)
  | PStr s => negb (String.eqb s "")
  | PList items => match items with [] => false | _ :: _ => true end
  | PDict entries => match entries with [] => false | _ :: _ => true end
  end.

(** [type(v).__name__], used in the text of an [AttributeError]. *)
Definition type_name (v : pyval) : string :=
  match v with
  | PNone => "NoneType"
  | PBool _ => "bool"
  | PInt _ => "int"
  | PFloat _ => "float"
  | PStr _ => "str"
  | PList _ => "list"
  | PDict _ => "dict"
  end.

(** Key lookup in a dict. *)
Fixpoint dict_lookup (key : string) (entries : list (string * pyval)) : option pyval :=
  match entries with
  | [] => None
  | (k, v) :: rest => if String.eqb k key then Some v else dict_lookup key rest
  end.

(** [d.get(key, default)] on a dict. *)
Definition dict_get (entries : list (string * pyval)) (key : string) (default : pyval) : pyval :=
  match dict_lookup key entries with
  | Some v => v
  | None => default
  end.

(** ** Exceptions *)

(** The subclasses of [requests.exceptions.RequestException] that
    [requests.get], [raise_for_status] and [response.json] raise. *)
Inductive request_exception : Type :=
| ConnectionError
| Timeout
| HTTPError (status : Z)
| JSONDecodeError.

(** The subclasses of [OSError] (of which [IOError] is an alias) that the
    file-system calls of [save_weather] raise. *)
Inductive os_error : Type :=
| FileExistsError
| FileNotFoundError
| NotADirectoryError
| IsADirectoryError.

Inductive exn : Type :=
| ValueError (message : string)
| AttributeError (type_of_object attribute : string)
| RequestException (e : request_exception)
| OSError (e : os_error).

(** ** Wall clock *)

(** A naive [datetime], as [datetime.now()] returns it. *)
Record datetime : Type := Datetime {
  year : N; month : N; day : N;
  hour : N; minute : N; second : N;
  microsecond : N }.

(** The ranges the [datetime] type enforces, with the year at four digits
    (where every C library prints [%Y] the same way). *)
Definition valid_datetime (t : datetime) : Prop :=
  (1000 <= year t <= 9999)%N /\ (1 <= month t <= 12)%N /\ (1 <= day t <= 31)%N /\
  (hour t < 24)%N /\ (minute t < 60)%N /\ (second t < 60)%N /\
  (microsecond t < 1000000)%N.

Fixpoint zeros (n : nat) : string :=
  match n with
  | O => ""
  | S n' => String "0" (zeros n')
  end.

(** [str(n).zfill(width)], i.e. ["%0<width>d" % n] for a natural number. *)
Definition zfill (width : nat) (n : N) : string :=
  let s := pretty n in
  zeros (width - String.length s) +:+ s.

(** [t.isoformat()]: the fraction is printed only when it is not zero. *)
Definition isoformat (t : datetime) : string :=
  zfill 4 (year t) +:+ "-" +:+ zfill 2 (month t) +:+ "-" +:+ zfill 2 (day t) +:+ "T" +:+
  zfill 2 (hour t) +:+ ":" +:+ zfill 2 (minute t) +:+ ":" +:+ zfill 2 (second t) +:+
  (if (microsecond t =? 0)%N then "" else "." +:+ zfill 6 (microsecond t)).

(** [t.strftime('%Y%m%d_%H%M%S')]. *)
Definition strftime_Ymd_HMS (t : datetime) : string :=
  zfill 4 (year t) +:+ zfill 2 (month t) +:+ zfill 2 (day t) +:+ "_" +:+
  zfill 2 (hour t) +:+ zfill 2 (minute t) +:+ zfill 2 (second t).

(** ** File system *)

(** A path is the list of its components below the root, innermost first:
    [/home/airflow/data] is [["data"; "airflow"; "home"]], the parent of
    [name :: dir] is [dir], and the root is [[]]. *)
Abbreviation path := (list string).

(** [dir / name] *)
Definition path_div (dir : path) (name : string) : path := name :: dir.

(** [str(p)] *)
Definition path_str (p : path) : string :=
  match p with
  | [] => "/"
  | _ => String.concat "" (map (fun c => "/" +:+ c) (rev p))
  end.

Inductive node : Type :=
| Dir
| File (content : string).

(** What the name space holds at a path; the root is always a directory. *)
Definition node_at (files : gmap path node) (p : path) : option node :=
  match p with
  | [] => Some Dir
  | _ => files !! p
  end.

Definition is_dir (files : gmap path node) (p : path) : bool :=
  match node_at files p with
  | Some Dir => true
  | _ => false
  end.

(** ** Network *)

Record http_request : Type := HttpRequest {
  req_url : string;
  req_params : list (string * pyval);
  req_timeout : Z }.

(** The final response of a request: its status and what [response.json()]
    makes of its body ([None] when the body is not a JSON document). *)
Record response : Type := Response {
  status_code : Z;
  body_json : option pyval }.

(** ** Log *)

Inductive level : Type := INFO | ERROR.

(** The value interpolated into a log message is kept beside its text. *)
Inductive log_arg : Type :=
| NoArg
| ArgValue (v : pyval)
| ArgText (s : string)
| ArgExn (e : exn).

Record log_record : Type := LogRecord {
  levelname : level;
  msg : string;
  arg : log_arg }.

(** ** The world and the task monad *)

Record world : Type := World {
  clock : datetime;                                   (* read by datetime.now() *)
  fs : gmap path node;                                (* the file system *)
  http : http_request -> request_exception + response; (* how the network answers *)
  sent : list http_request;                           (* requests issued so far *)
  log : list log_record }.                            (* records logged so far *)

Inductive outcome (A : Type) : Type :=
| Returns (a : A)
| Raises (e : exn).
Arguments Returns {A} a.
Arguments Raises {A} e.

Definition task (A : Type) : Type := world -> outcome A * world.

Definition ret {A} (a : A) : task A := fun w => (Returns a, w).

Definition raise {A} (e : exn) : task A := fun w => (Raises e, w).

Definition bind {A B} (c : task A) (k : A -> task B) : task B :=
  fun w =>
    match c w with
    | (Returns a, w') => k a w'
    | (Raises e, w') => (Raises e, w')
    end.

(** [try: body  except <handles>: handler]: an exception the clause does not
    name goes through. *)
Definition try_except {A} (body : task A) (handles : exn -> bool) (handler : exn -> task A) : task A :=
  fun w =>
    match body w with
    | (Returns a, w') => (Returns a, w')
    | (Raises e, w') => if handles e then handler e w' else (Raises e, w')
    end.

Declare Scope task_scope.
Delimit Scope task_scope with task.
Notation "x <- c ;; k" := (bind c (fun x => k))
  (at level 100, c at next level, right associativity) : task_scope.
Notation "c ;; k" := (bind c (fun _ => k))
  (at level 100, right associativity) : task_scope.
Open Scope task_scope.

Definition set_fs (files : gmap path node) (w : world) : world :=
  {| clock := clock w; fs := files; http := http w; sent := sent w; log := log w |}.

Definition logger_emit (l : level) (text : string) (a : log_arg) : task unit :=
  fun w =>
    (Returns tt,
     {| clock := clock w; fs := fs w; http := http w; sent := sent w;
        log := log w ++ [LogRecord l text a] |}).

Definition logger_info : string -> log_arg -> task unit := logger_emit INFO.
Definition logger_error : string -> log_arg -> task unit := logger_emit ERROR.

(** [datetime.now()] *)
Definition datetime_now : task datetime := fun w => (Returns (clock w), w).

(** [obj.get(key, default)]: only a dict has the method. *)
Definition py_get (obj : pyval) (key : string) (default : pyval) : task pyval :=
  match obj with
  | PDict entries => ret (dict_get entries key default)
  | _ => raise (AttributeError (type_name obj) "get")
  end.

(** ** Task context *)

(** The task instance of the Airflow context, with the XCom values of the
    run keyed by the task that returned them. *)
Record task_instance : Type := TaskInstance {
  xcom : gmap string pyval }.

Record context : Type := Context {
  ti : task_instance }.

(** [ti.xcom_pull(task_ids=...)]: [None] when the task pushed nothing. *)
Definition xcom_pull (t : task_instance) (task_ids : string) : pyval :=
  match xcom t !! task_ids with
  | Some v => v
  | None => PNone
  end.

(** ** Task 2: [transform_weather] *)

Definition london_latitude : float := 51.5074%float.
Definition london_longitude : float := (-0.1278)%float.

Definition transform_weather (ctx : context) : task pyval :=
  logger_info "Starting weather transform task..." NoArg ;;
  let raw_data := xcom_pull (ti ctx) "fetch_weather" in
  if negb (truthy raw_data) then
    raise (ValueError "No weather data received from fetch task")
  else
    current <- py_get raw_data "current" (PDict []) ;;
    now <- datetime_now ;;
    temperature_2m <- py_get current "temperature_2m" PNone ;;
    relative_humidity_2m <- py_get current "relative_humidity_2m" PNone ;;
    weather_code <- py_get current "weather_code" PNone ;;
    let transformed :=
      PDict [ ("timestamp", PStr (isoformat now));
              ("location", PDict [ ("name", PStr "London");
                                   ("latitude", PFloat london_latitude);
                                   ("longitude", PFloat london_longitude) ]);
              ("weather", PDict [ ("temperature_celsius", temperature_2m);
                                  ("humidity_percent", relative_humidity_2m);
                                  ("weather_code", weather_code) ]) ] in
    logger_info "Transformed weather data: " (ArgValue transformed) ;;
    ret transformed.

(** ** File-system calls *)

(** [os.mkdir(p)]: the parent is resolved first, then the name must be free. *)
Definition os_mkdir (p : path) (files : gmap path node) : os_error + gmap path node :=
  match p with
  | [] => inl FileExistsError
  | _ :: dir =>
      match node_at files dir with
      | None => inl FileNotFoundError
      | Some (File _) => inl NotADirectoryError
      | Some Dir =>
          match files !! p with
          | Some _ => inl FileExistsError
          | None => inr (<[p := Dir]> files)
          end
      end
  end.

(** [Path.mkdir(parents=False, exist_ok=True)] *)
Definition mkdir_exist_ok (p : path) (files : gmap path node) : os_error + gmap path node :=
  match os_mkdir p files with
  | inr files' => inr files'
  | inl FileNotFoundError => inl FileNotFoundError
  | inl e => if is_dir files p then inr files else inl e
  end.

(** [Path.mkdir(parents=True, exist_ok=True)], as pathlib does it: try the
    directory itself, make the parents when it reports a missing one and try
    again, and put up with any other error when the directory is there. *)
Fixpoint mkdir_parents_exist_ok (p : path) (files : gmap path node) : os_error + gmap path node :=
  match os_mkdir p files with
  | inr files' => inr files'
  | inl FileNotFoundError =>
      match p with
      | [] => inl FileNotFoundError
      | _ :: dir =>
          match mkdir_parents_exist_ok dir files with
          | inr files' => mkdir_exist_ok p files'
          | inl e => inl e
          end
      end
  | inl e => if is_dir files p then inr files else inl e
  end.

Definition Path_mkdir (p : path) : task unit :=
  fun w =>
    match mkdir_parents_exist_ok p (fs w) with
    | inr files => (Returns tt, set_fs files w)
    | inl e => (Raises (OSError e), w)
    end.

(** [open(p, 'w')]: creates the file or truncates it; the handle is the path. *)
Definition open_w (p : path) : task path :=
  fun w =>
    match p with
    | [] => (Raises (OSError IsADirectoryError), w)
    | _ :: dir =>
        match node_at (fs w) dir with
        | None => (Raises (OSError FileNotFoundError), w)
        | Some (File _) => (Raises (OSError NotADirectoryError), w)
        | Some Dir =>
            match fs w !! p with
            | Some Dir => (Raises (OSError IsADirectoryError), w)
            | _ => (Returns p, set_fs (<[p := File ""]> (fs w)) w)
            end
        end
    end.

(** [f.write(text)] on a handle of [open_w]. *)
Definition file_write (f : path) (text : string) : task unit :=
  fun w =>
    match fs w !! f with
    | Some (File content) => (Returns tt, set_fs (<[f := File (content +:+ text)]> (fs w)) w)
    | _ => (Raises (OSError FileNotFoundError), w)
    end.

(** ** [json.dump(obj, f, indent=2)] *)

Definition dquote : ascii := "034"%char.
Definition backslash : ascii := "092"%char.
Definition newline : string := String "010"%char "".

Definition hex_digit (n : N) : ascii :=
  match n with
  | 0 => "0" | 1 => "1" | 2 => "2" | 3 => "3" | 4 => "4" | 5 => "5" | 6 => "6" | 7 => "7"
  | 8 => "8" | 9 => "9" | 10 => "a" | 11 => "b" | 12 => "c" | 13 => "d" | 14 => "e" | _ => "f"
  end%N%char.

(** The replacement of one character under [ensure_ascii]: the short escapes,
    [\u00xx] for the other characters outside [' '..'~'], the character itself
    otherwise. *)
Definition escape_char (c : ascii) : string :=
  let n := N_of_ascii c in
  if (n =? 92)%N then String backslash (String backslash "")
  else if (n =? 34)%N then String backslash (String dquote "")
  else if (n =? 8)%N then String backslash "b"
  else if (n =? 12)%N then String backslash "f"
  else if (n =? 10)%N then String backslash "n"
  else if (n =? 13)%N then String backslash "r"
  else if (n =? 9)%N then String backslash "t"
  else if (n <? 32)%N || (126 <? n)%N then
    String backslash ("u00" +:+ String (hex_digit (n / 16)) (String (hex_digit (n mod 16)) ""))
  else String c "".

Fixpoint escape_chars (s : string) : string :=
  match s with
  | EmptyString => ""
  | String c rest => escape_char c +:+ escape_chars rest
  end.

(** [json.encoder.py_encode_basestring_ascii] *)
Definition encode_basestring_ascii (s : string) : string :=
  String dquote (escape_chars s) +:+ String dquote "".

Fixpoint spaces (n : nat) : string :=
  match n with
  | O => ""
  | S n' => String " " (spaces n')
  end.

Section JSON.

(** [float.__repr__] on a finite float is the interpreter's own; the encoder
    is given it. *)
Variable float_repr : float -> string.

(** [json.encoder.floatstr] with [allow_nan=True] *)
Definition floatstr (o : float) : string :=
  if negb (PrimFloat.eqb o o) then "NaN"
  else if PrimFloat.eqb o infinity then "Infinity"
  else if PrimFloat.eqb o neg_infinity then "-Infinity"
  else float_repr o.

(** The encoder with [indent=2] (so the item separator is [","] and the key
    separator [": "]), at nesting depth [depth]. *)
Fixpoint iterencode (depth : nat) (o : pyval) : string :=
  let newline_indent := newline +:+ spaces (2 * S depth) in
  let closing := newline +:+ spaces (2 * depth) in
  match o with
  | PStr s => encode_basestring_ascii s
  | PNone => "null"
  | PBool true => "true"
  | PBool false => "false"
  | PInt n => pretty n
  | PFloat f => floatstr f
  | PList items =>
      match items with
      | [] => "[]"
      | _ :: _ =>
          "[" +:+ newline_indent +:+
          String.concat ("," +:+ newline_indent) (map (iterencode (S depth)) items) +:+
          closing +:+ "]"
      end
  | PDict entries =>
      match entries with
      | [] => "{}"
      | _ :: _ =>
          "{" +:+ newline_indent +:+
          String.concat ("," +:+ newline_indent)
            (map (fun kv => match kv with
                            | (k, v) => encode_basestring_ascii k +:+ ": " +:+ iterencode (S depth) v
                            end) entries) +:+
          closing +:+ "}"
      end
  end.

Definition json_dump (obj : pyval) (f : path) : task unit :=
  file_write f (iterencode 0 obj).

(** ** Task 3: [save_weather] *)

(** [Path('/home/airflow/data')] *)
Definition output_dir : path := ["data"; "airflow"; "home"].

(** [except IOError] *)
Definition is_IOError (e : exn) : bool :=
  match e with
  | OSError _ => true
  | _ => false
  end.

Definition save_weather (ctx : context) : task pyval :=
  logger_info "Starting weather save task..." NoArg ;;
  let weather_data := xcom_pull (ti ctx) "transform_weather" in
  if negb (truthy weather_data) then
    raise (ValueError "No weather data received from transform task")
  else
    Path_mkdir output_dir ;;
    now <- datetime_now ;;
    let timestamp := strftime_Ymd_HMS now in
    let file_path := path_div output_dir ("weather_" +:+ timestamp +:+ ".json") in
    try_except
      (f <- open_w file_path ;;
       json_dump weather_data f ;;
       logger_info "Weather data successfully saved to " (ArgText (path_str file_path)) ;;
       ret (PStr (path_str file_path)))
      is_IOError
      (fun e =>
         logger_error "Error saving weather data: " (ArgExn e) ;;
         raise e).

End JSON.

(** ** Task 1: [fetch_weather] *)

Definition url : string := "https://api.open-meteo.com/v1/forecast".

Definition params : list (string * pyval) :=
  [ ("latitude", PFloat 51.5074%float);
    ("longitude", PFloat (-0.1278)%float);
    ("current", PStr "temperature_2m,relative_humidity_2m,weather_code");
    ("timezone", PStr "UTC") ].

(** [requests.get(url, params=params, timeout=timeout)]: the request goes out
    and the network answers with a response or with an exception. *)
Definition requests_get (u : string) (ps : list (string * pyval)) (timeout : Z) : task response :=
  fun w =>
    let request := HttpRequest u ps timeout in
    let w' := {| clock := clock w; fs := fs w; http := http w;
                 sent := sent w ++ [request]; log := log w |} in
    match http w request with
    | inl e => (Raises (RequestException e), w')
    | inr r => (Returns r, w')
    end.

(** [response.raise_for_status()]: an [HTTPError] for a 4xx or 5xx status. *)
Definition raise_for_status (r : response) : task unit :=
  if ((400 <=? status_code r) && (status_code r <? 600))%Z
  then raise (RequestException (HTTPError (status_code r)))
  else ret tt.

(** [response.json()] *)
Definition response_json (r : response) : task pyval :=
  match body_json r with
  | Some data => ret data
  | None => raise (RequestException JSONDecodeError)
  end.

(** [except requests.exceptions.RequestException] *)
Definition is_RequestException (e : exn) : bool :=
  match e with
  | RequestException _ => true
  | _ => false
  end.

Definition fetch_weather : task pyval :=
  logger_info "Starting weather fetch task..." NoArg ;;
  try_except
    (response <- requests_get url params 10 ;;
     raise_for_status response ;;
     data <- response_json response ;;
     logger_info "Successfully fetched weather data: " (ArgValue data) ;;
     ret data)
    is_RequestException
    (fun e =>
       logger_error "Error fetching weather data: " (ArgExn e) ;;
       raise e).

(** ** Notions used in the statements *)

Definition is_file (files : gmap path node) (p : path) : bool :=
  match node_at files p with
  | Some (File _) => true
  | _ => false
  end.

(** A path followed by its ancestors below the root. *)
Fixpoint chain (p : path) : list path :=
  match p with
  | [] => []
  | _ :: dir => p :: chain dir
  end.

(** Every entry of the name space lies in a directory. *)
Definition wf_fs (files : gmap path node) : Prop :=
  forall name dir, is_Some (files !! (name :: dir)) -> node_at files dir = Some Dir.

(** No regular file sits where a directory of the chain has to be. *)
Definition no_file_on (files : gmap path node) (p : path) : Prop :=
  forall q, q ∈ chain p -> is_file files q = false.

(** The world as a task leaves it apart from the log. *)
Definition same_outside_log (w w' : world) : Prop :=
  clock w' = clock w /\ fs w' = fs w /\ http w' = http w /\ sent w' = sent w.

(** The world at another time of the wall clock. *)
Definition at_time (t : datetime) (w : world) : world :=
  {| clock := t; fs := fs w; http := http w; sent := sent w; log := log w |}.

(** What [transform_weather] makes of the value it pulls and of the time it
    reads, as one expression. *)
Definition transform_outcome (raw_data : pyval) (now : datetime) : outcome pyval :=
  if negb (truthy raw_data) then Raises (ValueError "No weather data received from fetch task")
  else
    match raw_data with
    | PDict entries =>
        match dict_get entries "current" (PDict []) with
        | PDict current =>
            Returns
              (PDict [ ("timestamp", PStr (isoformat now));
                       ("location", PDict [ ("name", PStr "London");
                                            ("latitude", PFloat london_latitude);
                                            ("longitude", PFloat london_longitude) ]);
                       ("weather", PDict [ ("temperature_celsius", dict_get current "temperature_2m" PNone);
                                           ("humidity_percent", dict_get current "relative_humidity_2m" PNone);
                                           ("weather_code", dict_get current "weather_code" PNone) ]) ])
        | other => Raises (AttributeError (type_name other) "get")
        end
    | other => Raises (AttributeError (type_name other) "get")
    end.



(** The file written by [save_weather] at time [t]. *)
Definition weather_file_name (t : datetime) : string :=
  "weather_" +:+ strftime_Ymd_HMS t +:+ ".json".

Definition weather_file_path (t : datetime) : path :=
  path_div output_dir (weather_file_name t).

Definition is_digit (c : ascii) : bool :=
  ((48 <=? N_of_ascii c) && (N_of_ascii c <=? 57))%N.

Definition two_digits (s : string) : bool :=
  match s with
  | String a (String b EmptyString) => is_digit a && is_digit b
  | _ => false
  end.

Definition four_digits (s : string) : bool :=
  match s with
  | String a (String b (String c (String d EmptyString))) =>
      is_digit a && is_digit b && is_digit c && is_digit d
  | _ => false
  end.

(** The shape [YYYYMMDD_HHMMSS]: eight digits, an underscore, six digits. *)
Definition stamp_shape (s : string) : bool :=
  match list_ascii_of_string s with
  | [y1; y2; y3; y4; m1; m2; d1; d2; u; h1; h2; n1; n2; s1; s2] =>
      forallb is_digit [y1; y2; y3; y4; m1; m2; d1; d2; h1; h2; n1; n2; s1; s2] &&
      Ascii.eqb u "_"
  | _ => false
  end.


(** ** The end-to-end scenario *)

Definition scenario_time : datetime := Datetime 2026 1 13 10 0 0 0.

Definition scenario_raw : pyval :=
  PDict [ ("current", PDict [ ("temperature_2m", PFloat 15.3%float);
                              ("relative_humidity_2m", PInt 80);
                              ("weather_code", PInt 3) ]) ].

Definition scenario_record : pyval :=
  PDict [ ("timestamp", PStr "2026-01-13T10:00:00");
          ("location", PDict [ ("name", PStr "London");
                               ("latitude", PFloat 51.5074%float);
                               ("longitude", PFloat (-0.1278)%float) ]);
          ("weather", PDict [ ("temperature_celsius", PFloat 15.3%float);
                              ("humidity_percent", PInt 80);
                              ("weather_code", PInt 3) ]) ].

Definition scenario_path : path :=
  ["weather_20260113_100000.json"; "data"; "airflow"; "home"].

Definition quoted (s : string) : string := String dquote s +:+ String dquote "".

Definition lines (ls : list string) : string := String.concat newline ls.

(** The text of the scenario's file, the floats as the interpreter prints
    them. *)
Definition scenario_text (float_repr : float -> string) : string :=
  lines
    [ "{";
      "  " +:+ quoted "timestamp" +:+ ": " +:+ quoted "2026-01-13T10:00:00" +:+ ",";
      "  " +:+ quoted "location" +:+ ": {";
      "    " +:+ quoted "name" +:+ ": " +:+ quoted "London" +:+ ",";
      "    " +:+ quoted "latitude" +:+ ": " +:+ float_repr 51.5074%float +:+ ",";
      "    " +:+ quoted "longitude" +:+ ": " +:+ float_repr (-0.1278)%float;
      "  },";
      "  " +:+ quoted "weather" +:+ ": {";
      "    " +:+ quoted "temperature_celsius" +:+ ": " +:+ float_repr 15.3%float +:+ ",";
      "    " +:+ quoted "humidity_percent" +:+ ": 80,";
      "    " +:+ quoted "weather_code" +:+ ": 3";
      "  }";
      "}" ].

(** ** Sample worlds, for running the tasks on concrete inputs *)

(** [float.__repr__] at the three floats of the scenario. *)
Definition float_repr_sample (f : float) : string :=
  if PrimFloat.eqb f 15.3%float then "15.3"
  else if PrimFloat.eqb f 51.5074%float then "51.5074"
  else if PrimFloat.eqb f (-0.1278)%float then "-0.1278"
  else "0.0".

Definition offline : http_request -> request_exception + response :=
  fun _ => inl ConnectionError.

(** A network that answers every request with the given response. *)
Definition answering (r : response) : http_request -> request_exception + response :=
  fun _ => inr r.

(** A world with an empty file system and an empty log. *)
Definition fresh_world (t : datetime) (net : http_request -> request_exception + response) : world :=
  {| clock := t; fs := ∅; http := net; sent := []; log := [] |}.

(** A context in which one task has handed over one value. *)
Definition handoff (task_id : string) (v : pyval) : context :=
  Context (TaskInstance {[ task_id := v ]}).

(** A context in which no task has handed over anything. *)
Definition no_handoff : context := Context (TaskInstance ∅).

(** A world that has seen some activity: the output directory is there with
    a file of an earlier run in it, a request has gone out, a record has been
    logged, and the network answers. *)
Definition used_world (t : datetime) : world :=
  {| clock := t;
     fs := <[["weather_20260112_000000.json"; "data"; "airflow"; "home"] := File "{}"]>
             (<[["data"; "airflow"; "home"] := Dir]>
                (<[["airflow"; "home"] := Dir]> (<[["home"] := Dir]> ∅)));
     http := answering (Response 200 (Some (PDict [])));
     sent := [HttpRequest "https://example.org/" [] 1];
     log := [LogRecord INFO "Starting weather fetch task..." NoArg] |}.

(** A context in which the first two tasks have both handed over a value. *)
Definition handoff2 (fetched transformed : pyval) : context :=
  Context (TaskInstance (<["transform_weather" := transformed]> {[ "fetch_weather" := fetched ]})).

(** The one request [fetch_weather] sends. *)
Definition fetch_request : http_request := HttpRequest url params 10.

(** ** The DAG *)

(** [default_args]: what every task of the DAG inherits. *)
Record task_args : Type := TaskArgs {
  owner : string;
  retries : nat;
  retry_delay_minutes : N;
  start_date : datetime }.

Definition default_args : task_args :=
  {| owner := "airflow";
     retries := 1;
     retry_delay_minutes := 5;
     start_date := Datetime 2026 1 13 0 0 0 0 |}.

(** A [PythonOperator]: a task id and the callable the task runs.  A callable
    that takes [**context] is given the context; [fetch_weather] takes none. *)
Record operator : Type := PythonOperator {
  task_id : string;
  python_callable : context -> task pyval }.

Definition task_fetch : operator :=
  PythonOperator "fetch_weather" (fun _ => fetch_weather).

Definition task_transform : operator :=
  PythonOperator "transform_weather" transform_weather.

Definition task_save (float_repr : float -> string) : operator :=
  PythonOperator "save_weather" (save_weather float_repr).

(** One try of a task: the callable runs with the XCom values of the run at
    hand, and what it returns is pushed under the id of the task, unless it
    is [None]. *)
Definition execute (op : operator) (xcoms : gmap string pyval) : task (gmap string pyval) :=
  result <- python_callable op (Context (TaskInstance xcoms)) ;;
  ret (match result with
       | PNone => xcoms
       | _ => <[task_id op := result]> xcoms
       end).

(** A task with its retries: a try that raises is followed by another one
    while retries are left, and the exception of the last try is the task's.
    [elapse] is what the world goes through before a try starts (time
    passes, the network and the disk may change). *)
Fixpoint run_task (tries_left : nat) (elapse : world -> world) (op : operator)
    (xcoms : gmap string pyval) : task (gmap string pyval) :=
  fun w =>
    match execute op xcoms (elapse w) with
    | (Returns xcoms', w') => (Returns xcoms', w')
    | (Raises e, w') =>
        match tries_left with
        | O => (Raises e, w')
        | S n => run_task n elapse op xcoms w'
        end
    end.

(** One run of [task_fetch >> task_transform >> task_save]: each task starts
    when the one before it has succeeded, and a failed task ends the run. *)
Definition dag_run (float_repr : float -> string) (elapse : world -> world) : task (gmap string pyval) :=
  fetched <- run_task (retries default_args) elapse task_fetch ∅ ;;
  transformed <- run_task (retries default_args) elapse task_transform fetched ;;
  run_task (retries default_args) elapse (task_save float_repr) transformed.

(** ** Reading the log and the stamps back *)

Definition is_error (r : log_record) : bool :=
  match levelname r with
  | ERROR => true
  | INFO => false
  end.

Definition digit_value (c : ascii) : N := (N_of_ascii c - 48)%N.

(** The number a string of digits stands for. *)
Fixpoint digits_value (acc : N) (s : string) : N :=
  match s with
  | EmptyString => acc
  | String c rest => digits_value (10 * acc + digit_value c) rest
  end.

(** A string of exactly [width] digits that stands for [n]. *)
Definition digits_of (width : nat) (n : N) (s : string) : bool :=
  (String.length s =? width)%nat &&
  forallb is_digit (list_ascii_of_string s) &&
  (digits_value 0 s =? n)%N.

(** The date and time of day of a clock reading, down to the second. *)
Definition to_second (t : datetime) : N * N * N * N * N * N :=
  (year t, month t, day t, hour t, minute t, second t).



(** A world in which [/home] is a regular file. *)
Definition blocked_world (t : datetime) : world :=
  {| clock := t; fs := <[["home"] := File "not a directory"]> ∅;
     http := offline; sent := []; log := [] |}.

(** A world in which a directory has the name of the file to be written at
    [t]. *)
Definition squatted_world (t : datetime) : world :=
  {| clock := t;
     fs := <[weather_file_path t := Dir]>
             (<[["data"; "airflow"; "home"] := Dir]>
                (<[["airflow"; "home"] := Dir]> (<[["home"] := Dir]> ∅)));
     http := offline; sent := []; log := [] |}.


(** The network gives one and the same answer, and nothing else changes. *)
Definition steady (answer : request_exception + response) (w : world) : world :=
  {| clock := clock w; fs := fs w; http := fun _ => answer; sent := sent w; log := log w |}.

(** ** The file system under [mkdir] *)

Lemma chain_length (p q : path) : q ∈ chain p -> length q <= length p.
Proof.
  induction p as [|name dir IH]; simpl.
  - intros H. inversion H.
  - intros [->|H]%elem_of_cons; simpl; [lia|]. specialize (IH H). lia.
Qed.

Lemma not_in_chain_parent (name : string) (dir : path) : name :: dir ∉ chain dir.
Proof. intros H%chain_length. simpl in H. lia. Qed.

Lemma is_dir_lookup (files : gmap path node) (name : string) (dir : path) :
  is_dir files (name :: dir) = true <-> files !! (name :: dir) = Some Dir.
Proof.
  unfold is_dir, node_at. split.
  - destruct (files !! (name :: dir)) as [[|c]|]; congruence.
  - intros ->. reflexivity.
Qed.

Lemma is_dir_node_at (files : gmap path node) (p : path) :
  is_dir files p = true <-> node_at files p = Some Dir.
Proof.
  unfold is_dir. split.
  - destruct (node_at files p) as [[|c]|]; congruence.
  - intros ->. reflexivity.
Qed.

Lemma node_at_insert_ne (files : gmap path node) (p q : path) (n : node) :
  p <> q -> node_at (<[p := n]> files) q = node_at files q.
Proof.
  intros Hne. destruct q as [|x q]; [reflexivity|].
  unfold node_at. by rewrite lookup_insert_ne.
Qed.

Lemma is_dir_insert_dir (files : gmap path node) (p q : path) :
  is_dir files q = true -> is_dir (<[p := Dir]> files) q = true.
Proof.
  intros H. destruct (decide (p = q)) as [->|Hne].
  - destruct q as [|x q]; [reflexivity|]. apply is_dir_lookup, lookup_insert_eq.
  - unfold is_dir in *. by rewrite node_at_insert_ne.
Qed.

Lemma wf_fs_insert_dir (files : gmap path node) (name : string) (dir : path) :
  wf_fs files -> node_at files dir = Some Dir -> wf_fs (<[name :: dir := Dir]> files).
Proof.
  intros Hwf Hdir name' dir' Hsome.
  apply is_dir_node_at, is_dir_insert_dir, is_dir_node_at.
  destruct (decide (name :: dir = name' :: dir')) as [Heq|Hne].
  - by injection Heq as _ <-.
  - rewrite lookup_insert_ne in Hsome by done. by apply (Hwf name').
Qed.

Lemma wf_fs_chain_dirs (files : gmap path node) (p : path) :
  wf_fs files -> is_dir files p = true -> forall q, q ∈ chain p -> is_dir files q = true.
Proof.
  intros Hwf. induction p as [|name dir IH]; intros Hp q Hq; simpl in Hq.
  - inversion Hq.
  - apply elem_of_cons in Hq as [->|Hq]; [done|].
    apply IH; [|done]. apply is_dir_node_at, (Hwf name).
    apply is_dir_lookup in Hp. by rewrite Hp.
Qed.

Lemma no_file_on_parent (files : gmap path node) (name : string) (dir : path) :
  no_file_on files (name :: dir) -> no_file_on files dir.
Proof. intros H q Hq. apply H. simpl. apply elem_of_cons; by right. Qed.

(** What [mkdir(parents=True, exist_ok=True)] does when no regular file is
    in its way: it succeeds, the directory is there afterwards, nothing that
    was there has changed, and nothing outside the chain has appeared.  In a
    well-formed name space all the parents are there too, the name space
    stays well formed, and nothing changes when the directory was there. *)
Lemma mkdir_parents_exist_ok_spec (p : path) (files : gmap path node) :
  no_file_on files p ->
  exists files',
    mkdir_parents_exist_ok p files = inr files' /\
    is_dir files' p = true /\
    (forall q, q ∉ chain p -> files' !! q = files !! q) /\
    (forall q, is_Some (files !! q) -> files' !! q = files !! q) /\
    (wf_fs files ->
       wf_fs files' /\
       (forall q, q ∈ chain p -> is_dir files' q = true) /\
       (is_dir files p = true -> files' = files)).
Proof.
  revert files. induction p as [|name dir IH]; intros files Hnf.
  - exists files. simpl. do 4 (split; [done|]). intros Hwf. split; [done|]. split; [|done].
    intros q Hq. inversion Hq.
  - assert (Hself : forall c, files !! (name :: dir) <> Some (File c)).
    { intros c Hc. specialize (Hnf (name :: dir)). unfold is_file, node_at in Hnf.
      rewrite Hc in Hnf. discriminate Hnf. simpl. apply elem_of_cons; by left. }
    cbn [mkdir_parents_exist_ok os_mkdir].
    destruct (node_at files dir) as [[|c]|] eqn:Hdir.
    + (* the parent is a directory *)
      destruct (files !! (name :: dir)) as [[|c]|] eqn:Hp.
      * exists files. rewrite (proj2 (is_dir_lookup files name dir) Hp).
        split_and!; try done.
        intros Hwf. split_and!; try done.
        intros q Hq. eapply wf_fs_chain_dirs; eauto. by apply is_dir_lookup.
      * by destruct (Hself c).
      * exists (<[name :: dir := Dir]> files). split; [done|].
        split; [apply is_dir_lookup, lookup_insert_eq|].
        split. { intros q Hq. apply lookup_insert_ne. intros <-. apply Hq. simpl. apply elem_of_cons; by left. }
        split. { intros q Hq. apply lookup_insert_ne. intros <-. rewrite Hp in Hq. by destruct Hq. }
        intros Hwf. split; [by apply wf_fs_insert_dir|]. split.
        -- intros q [->|Hq]%elem_of_cons; [apply is_dir_lookup, lookup_insert_eq|].
           apply is_dir_insert_dir. eapply wf_fs_chain_dirs; eauto. by apply is_dir_node_at.
        -- intros Hd%is_dir_lookup. congruence.
    + (* the parent is a regular file *)
      destruct dir as [|x dir]; [discriminate Hdir|].
      specialize (Hnf (x :: dir)). unfold is_file in Hnf. rewrite Hdir in Hnf.
      discriminate Hnf. simpl. apply elem_of_cons; right; apply elem_of_cons; by left.
    + (* the parent is missing: make it, then try again *)
      destruct (IH files (no_file_on_parent _ _ _ Hnf)) as (files1 & -> & Hd1 & Hout1 & Hkeep1 & Hwf1).
      unfold mkdir_exist_ok. cbn [os_mkdir].
      rewrite (proj1 (is_dir_node_at files1 dir) Hd1).
      rewrite (Hout1 _ (not_in_chain_parent name dir)).
      assert (Hnowf : ~ wf_fs files \/ files !! (name :: dir) = None).
      { destruct (files !! (name :: dir)) eqn:Hp; [left|by right].
        intros Hwf. specialize (Hwf name dir). rewrite Hp in Hwf.
        rewrite Hwf in Hdir by eauto. discriminate. }
      destruct (files !! (name :: dir)) as [[|c]|] eqn:Hp.
      * assert (Hd : is_dir files1 (name :: dir) = true).
        { apply is_dir_lookup. rewrite (Hout1 _ (not_in_chain_parent name dir)). exact Hp. }
        rewrite Hd. exists files1. split; [done|]. split; [done|].
        split. { intros q Hq. apply Hout1. intros Hin. apply Hq. simpl. apply elem_of_cons; by right. }
        split; [done|].
        intros Hwf. destruct Hnowf as [Hno|Hno]; [by destruct Hno|discriminate Hno].
      * by destruct (Hself c).
      * exists (<[name :: dir := Dir]> files1). split; [done|].
        split; [apply is_dir_lookup, lookup_insert_eq|].
        split. { intros q Hq. rewrite lookup_insert_ne.
                 - apply Hout1. intros Hin. apply Hq. simpl. apply elem_of_cons; by right.
                 - intros <-. apply Hq. simpl. apply elem_of_cons; by left. }
        split. { intros q Hq. rewrite lookup_insert_ne; [by apply Hkeep1|].
                 intros <-. rewrite Hp in Hq. by destruct Hq. }
        intros Hwf. destruct (Hwf1 Hwf) as (Hwf' & Hall & _). split.
        { apply wf_fs_insert_dir; [done|]. by apply is_dir_node_at. }
        split.
        -- intros q [->|Hq]%elem_of_cons; [apply is_dir_lookup, lookup_insert_eq|].
           apply is_dir_insert_dir. by apply Hall.
        -- intros Hd%is_dir_lookup. congruence.
Qed.

(** ** [transform_weather] *)


(** The task computes [transform_outcome] of the value it pulls and the time
    on the clock, and changes nothing but the log. *)
Lemma transform_weather_run (ctx : context) (w : world) :
  fst (transform_weather ctx w) = transform_outcome (xcom_pull (ti ctx) "fetch_weather") (clock w) /\
  same_outside_log w (snd (transform_weather ctx w)).
Proof.
  unfold transform_weather, transform_outcome, same_outside_log, bind.
  destruct (xcom_pull (ti ctx) "fetch_weather") as [|b|n|f|s|items|entries]; cbn;
    try (destruct (negb _); cbn; by repeat split).
  - by repeat split.
  - destruct entries as [|entry entries]; cbn; [by repeat split|].
    destruct (dict_get (entry :: entries) "current" (PDict [])); cbn; by repeat split.
Qed.





(** Whatever is returned is a dict that starts with the time stamp. *)
Lemma transform_outcome_returns (raw_data : pyval) (now : datetime) (record : pyval) :
  transform_outcome raw_data now = Returns record ->
  exists rest, record = PDict (("timestamp", PStr (isoformat now)) :: rest).
Proof.
  unfold transform_outcome. destruct (negb (truthy raw_data)); [discriminate|].
  destruct raw_data as [|b|n|f|s|items|entries]; try discriminate.
  destruct (dict_get entries "current" (PDict [])); try discriminate.
  intros [= <-]. eauto.
Qed.










(** C9: for every raw input and every clock value, two runs of the
    Transformer on that input at that time return the same record (or fail
    alike), whatever else differs between the two worlds, and the two records
    are encoded to the same text. *)
Theorem transform_weather_deterministic (ctx1 ctx2 : context) (w1 w2 : world) :
  xcom_pull (ti ctx1) "fetch_weather" = xcom_pull (ti ctx2) "fetch_weather" ->
  clock w1 = clock w2 ->
  fst (transform_weather ctx1 w1) = fst (transform_weather ctx2 w2) /\
  forall float_repr record1 record2,
    fst (transform_weather ctx1 w1) = Returns record1 ->
    fst (transform_weather ctx2 w2) = Returns record2 ->
    iterencode float_repr 0 record1 = iterencode float_repr 0 record2.
Proof.
  intros Hraw Hclock.
  assert (Heq : fst (transform_weather ctx1 w1) = fst (transform_weather ctx2 w2)).
  { rewrite (proj1 (transform_weather_run ctx1 w1)), (proj1 (transform_weather_run ctx2 w2)).
    by rewrite Hraw, Hclock. }
  split; [exact Heq|].
  intros float_repr record1 record2 H1 H2. rewrite H1, H2 in Heq. by injection Heq as ->.
Qed.

(** ** [save_weather] *)

Lemma bind_returns {A B} (c : task A) (k : A -> task B) (w w' : world) (a : A) :
  c w = (Returns a, w') -> bind c k w = k a w'.
Proof. unfold bind. by intros ->. Qed.

Lemma Path_mkdir_returns (p : path) (w : world) (files' : gmap path node) :
  mkdir_parents_exist_ok p (fs w) = inr files' ->
  Path_mkdir p w = (Returns tt, set_fs files' w).
Proof. unfold Path_mkdir. by intros ->. Qed.

Lemma open_w_returns (name : string) (dir : path) (w : world) :
  node_at (fs w) dir = Some Dir ->
  is_dir (fs w) (name :: dir) = false ->
  open_w (name :: dir) w = (Returns (name :: dir), set_fs (<[name :: dir := File ""]> (fs w)) w).
Proof.
  intros Hdir Hnd. unfold open_w. rewrite Hdir.
  unfold is_dir, node_at in Hnd.
  by destruct (fs w !! (name :: dir)) as [[|c]|].
Qed.

Lemma file_write_returns (f : path) (text content : string) (w : world) :
  fs w !! f = Some (File content) ->
  file_write f text w = (Returns tt, set_fs (<[f := File (content +:+ text)]> (fs w)) w).
Proof. unfold file_write. by intros ->. Qed.

Lemma path_str_output_dir (name : string) :
  path_str (path_div output_dir name) = "/home/airflow/data/" +:+ name.
Proof. reflexivity. Qed.

Section SaveWeather.

Variable float_repr : float -> string.

(** A falsy value stops the task at its first check. *)
Lemma save_weather_falsy (ctx : context) (w : world) :
  truthy (xcom_pull (ti ctx) "transform_weather") = false ->
  fst (save_weather float_repr ctx w) =
    Raises (ValueError "No weather data received from transform task") /\
  same_outside_log w (snd (save_weather float_repr ctx w)).
Proof.
  intros Hfalsy. unfold save_weather, bind, same_outside_log. cbn. rewrite Hfalsy. cbn.
  by repeat split.
Qed.

(** A run on a truthy value, on a file system that lets it through. *)
Lemma save_weather_success (ctx : context) (w : world) :
  truthy (xcom_pull (ti ctx) "transform_weather") = true ->
  no_file_on (fs w) output_dir ->
  is_dir (fs w) (weather_file_path (clock w)) = false ->
  exists files',
    mkdir_parents_exist_ok output_dir (fs w) = inr files' /\
    fst (save_weather float_repr ctx w) =
      Returns (PStr (path_str (weather_file_path (clock w)))) /\
    fs (snd (save_weather float_repr ctx w)) =
      <[weather_file_path (clock w) :=
          File (iterencode float_repr 0 (xcom_pull (ti ctx) "transform_weather"))]> files' /\
    clock (snd (save_weather float_repr ctx w)) = clock w /\
    sent (snd (save_weather float_repr ctx w)) = sent w.
Proof.
  intros Htruthy Hnf Hnd.
  destruct (mkdir_parents_exist_ok_spec output_dir (fs w) Hnf)
    as (files' & Hmk & Hd & Hout & _).
  exists files'. split; [exact Hmk|].
  unfold save_weather. rewrite Htruthy. cbn [negb].
  erewrite bind_returns by reflexivity.
  erewrite bind_returns by (apply Path_mkdir_returns; exact Hmk).
  erewrite bind_returns by reflexivity.
  unfold try_except.
  erewrite bind_returns.
  2:{ apply open_w_returns.
      - by apply is_dir_node_at.
      - unfold is_dir, node_at in Hnd |- *. cbn [fs set_fs clock].
        unfold weather_file_path, path_div in Hnd.
        by rewrite (Hout _ (not_in_chain_parent _ output_dir)). }
  unfold json_dump.
  erewrite bind_returns.
  2:{ apply file_write_returns. cbn [fs set_fs]. apply lookup_insert_eq. }
  cbn. rewrite insert_insert_eq. by repeat split.
Qed.

(** A truthy value gets past the check: the task returns a path or stops on
    an [OSError] of the file system. *)
Lemma save_weather_truthy_outcomes (ctx : context) (w : world) :
  truthy (xcom_pull (ti ctx) "transform_weather") = true ->
  (exists p, fst (save_weather float_repr ctx w) = Returns (PStr p)) \/
  (exists e, fst (save_weather float_repr ctx w) = Raises (OSError e)).
Proof.
  intros Htruthy.
  unfold save_weather, bind, try_except, Path_mkdir, open_w, json_dump, file_write,
    logger_info, logger_error, logger_emit, datetime_now, ret, raise, path_div.
  rewrite Htruthy. cbn -[mkdir_parents_exist_ok output_dir iterencode node_at].
  repeat case_match; simplify_eq; cbn; eauto.
Qed.

End SaveWeather.

(** ** The shape of the file name *)

Lemma below_forallb (P : N -> bool) (bound : nat) :
  forallb (fun k => P (N.of_nat k)) (seq 0 bound) = true ->
  forall n, (n < N.of_nat bound)%N -> P n = true.
Proof.
  intros Hall n Hn. rewrite forallb_forall in Hall.
  specialize (Hall (N.to_nat n)). rewrite N2Nat.id in Hall.
  apply Hall, in_seq. lia.
Qed.

Lemma zfill2_digits (n : N) : (n < 100)%N -> two_digits (zfill 2 n) = true.
Proof.
  apply (below_forallb (fun n => two_digits (zfill 2 n)) 100). vm_compute. reflexivity.
Qed.

Lemma zfill4_digits (n : N) : (n < 10000)%N -> four_digits (zfill 4 n) = true.
Proof.
  apply (below_forallb (fun n => four_digits (zfill 4 n)) (100 * 100)). vm_compute. reflexivity.
Qed.

Ltac split_digits :=
  repeat match goal with
         | H : _ && _ = true |- _ => apply andb_true_iff in H as [? ?]
         end.

Lemma strftime_shape (t : datetime) :
  valid_datetime t -> stamp_shape (strftime_Ymd_HMS t) = true.
Proof.
  intros (Hy & Hm & Hd & Hh & Hn & Hs & _).
  pose proof (zfill4_digits (year t) ltac:(lia)) as Dy.
  pose proof (zfill2_digits (month t) ltac:(lia)) as Dm.
  pose proof (zfill2_digits (day t) ltac:(lia)) as Dd.
  pose proof (zfill2_digits (hour t) ltac:(lia)) as Dh.
  pose proof (zfill2_digits (minute t) ltac:(lia)) as Dn.
  pose proof (zfill2_digits (second t) ltac:(lia)) as Ds.
  unfold strftime_Ymd_HMS.
  destruct (zfill 4 (year t)) as [|y1 [|y2 [|y3 [|y4 [|]]]]]; try discriminate.
  destruct (zfill 2 (month t)) as [|m1 [|m2 [|]]]; try discriminate.
  destruct (zfill 2 (day t)) as [|d1 [|d2 [|]]]; try discriminate.
  destruct (zfill 2 (hour t)) as [|h1 [|h2 [|]]]; try discriminate.
  destruct (zfill 2 (minute t)) as [|n1 [|n2 [|]]]; try discriminate.
  destruct (zfill 2 (second t)) as [|s1 [|s2 [|]]]; try discriminate.
  unfold two_digits, four_digits in *. split_digits.
  cbv -[is_digit].
  repeat match goal with
         | H : is_digit _ = true |- _ => rewrite H; clear H
         end.
  reflexivity.
Qed.

(** ** The layout of the file *)


Lemma append_assoc (a b c : string) : (a +:+ b) +:+ c = a +:+ (b +:+ c).
Proof.
  induction a as [|x a IH]; [reflexivity|].
  change (String x ((a +:+ b) +:+ c) = String x (a +:+ (b +:+ c))). by rewrite IH.
Qed.

Lemma append_cons (x : ascii) (a b : string) : String x a +:+ b = String x (a +:+ b).
Proof. reflexivity. Qed.

Lemma append_nil (b : string) : "" +:+ b = b.
Proof. reflexivity. Qed.

(** Both texts are brought to the same nesting of their appends. *)
Lemma scenario_text_encodes (float_repr : float -> string) :
  iterencode float_repr 0 scenario_record = scenario_text float_repr.
Proof.
  cbv -[String.append].
  repeat (rewrite ?append_assoc, ?append_cons, ?append_nil).
  reflexivity.
Qed.

(** ** The Persister's claims *)



(** C10: when the value handed over is absent or empty, the Persister fails
    with the [ValueError] and the file system is what it was: no file has
    been written and the output directory has not been made, the check coming
    before [mkdir]. *)
Theorem save_weather_missing_data_leaves_fs
    (float_repr : float -> string) (ctx : context) (w : world) :
  truthy (xcom_pull (ti ctx) "transform_weather") = false ->
  fst (save_weather float_repr ctx w) =
    Raises (ValueError "No weather data received from transform task") /\
  fs (snd (save_weather float_repr ctx w)) = fs w /\
  is_dir (fs (snd (save_weather float_repr ctx w))) output_dir = is_dir (fs w) output_dir.
Proof.
  intros Hfalsy.
  destruct (save_weather_falsy float_repr ctx w Hfalsy) as [Hout (_ & Hfs & _)].
  split; [exact Hout|]. split; [exact Hfs|]. by rewrite Hfs.
Qed.

(** C3: for the raw input
    [{"current": {"temperature_2m": 15.3, "relative_humidity_2m": 80, "weather_code": 3}}]
    and the clock at 2026-01-13T10:00:00, the Transformer returns the record
    with that time stamp, London's location and the three values; handed that
    record at that time, on a file system that lets it through, the Persister
    writes it with an indent of two spaces to
    [/home/airflow/data/weather_20260113_100000.json] and returns that path. *)
Theorem end_to_end_scenario
    (float_repr : float -> string) (ctx_transform ctx_save : context) (w_transform w_save : world) :
  xcom_pull (ti ctx_transform) "fetch_weather" = scenario_raw ->
  clock w_transform = scenario_time ->
  xcom_pull (ti ctx_save) "transform_weather" = scenario_record ->
  clock w_save = scenario_time ->
  no_file_on (fs w_save) output_dir ->
  is_dir (fs w_save) scenario_path = false ->
  fst (transform_weather ctx_transform w_transform) = Returns scenario_record /\
  fst (save_weather float_repr ctx_save w_save) =
    Returns (PStr "/home/airflow/data/weather_20260113_100000.json") /\
  fs (snd (save_weather float_repr ctx_save w_save)) !! scenario_path =
    Some (File (scenario_text float_repr)).
Proof.
  intros Hraw Ht Hrecord Hs Hnf Hnd. split.
  - rewrite (proj1 (transform_weather_run ctx_transform w_transform)), Hraw, Ht. reflexivity.
  - destruct (save_weather_success float_repr ctx_save w_save) as (files' & _ & Hout & Hfs & _).
    + by rewrite Hrecord.
    + exact Hnf.
    + by rewrite Hs.
    + rewrite Hout, Hfs, Hrecord, Hs. split; [reflexivity|].
      rewrite <- scenario_text_encodes. apply lookup_insert_eq.
Qed.

Lemma no_file_on_empty (p : path) : no_file_on ∅ p.
Proof.
  intros q _. unfold is_file, node_at. destruct q; [reflexivity|]. by rewrite lookup_empty.
Qed.

Lemma wf_fs_empty : wf_fs ∅.
Proof. intros name dir [n Hn]. by rewrite lookup_empty in Hn. Qed.

Lemma valid_scenario_time : valid_datetime scenario_time.
Proof. unfold valid_datetime, scenario_time. cbn. lia. Qed.

Lemma end_to_end_scenario_witness :
  fst (transform_weather (handoff "fetch_weather" scenario_raw) (fresh_world scenario_time offline)) =
    Returns scenario_record /\
  fst (save_weather float_repr_sample (handoff "transform_weather" scenario_record)
         (fresh_world scenario_time offline)) =
    Returns (PStr "/home/airflow/data/weather_20260113_100000.json") /\
  fs (snd (save_weather float_repr_sample (handoff "transform_weather" scenario_record)
             (fresh_world scenario_time offline))) !! scenario_path =
    Some (File (scenario_text float_repr_sample)).
Proof.
  apply end_to_end_scenario; try reflexivity. apply no_file_on_empty.
Defined.



Lemma save_weather_missing_data_leaves_fs_witness :
  fst (save_weather float_repr_sample no_handoff (fresh_world scenario_time offline)) =
    Raises (ValueError "No weather data received from transform task") /\
  fs (snd (save_weather float_repr_sample no_handoff (fresh_world scenario_time offline))) = ∅ /\
  is_dir (fs (snd (save_weather float_repr_sample no_handoff (fresh_world scenario_time offline))))
    output_dir = false.
Proof.
  apply (save_weather_missing_data_leaves_fs float_repr_sample no_handoff
           (fresh_world scenario_time offline)).
  reflexivity.
Defined.

(** On a value that is there the same call does make the directory: what
    keeps the file system unchanged above is the order of the two steps. *)
Example save_weather_makes_output_dir :
  is_dir (fs (fresh_world scenario_time offline)) output_dir = false /\
  is_dir (fs (snd (save_weather float_repr_sample (handoff "transform_weather" scenario_record)
                     (fresh_world scenario_time offline)))) output_dir = true.
Proof. split; vm_compute; reflexivity. Qed.

Lemma transform_weather_deterministic_witness :
  fst (transform_weather (handoff "fetch_weather" scenario_raw) (fresh_world scenario_time offline)) =
  fst (transform_weather (handoff2 scenario_raw (PInt 1)) (used_world scenario_time)) /\
  forall float_repr record1 record2,
    fst (transform_weather (handoff "fetch_weather" scenario_raw) (fresh_world scenario_time offline)) =
      Returns record1 ->
    fst (transform_weather (handoff2 scenario_raw (PInt 1)) (used_world scenario_time)) =
      Returns record2 ->
    iterencode float_repr 0 record1 = iterencode float_repr 0 record2.
Proof.
  apply transform_weather_deterministic; reflexivity.
Defined.

(** ** [fetch_weather] *)

(** The task sends its one request and keeps clock and file system; what it
    returns or raises follows from how the network answers. *)
Lemma fetch_weather_run (w : world) :
  sent (snd (fetch_weather w)) = (sent w ++ [fetch_request])%list /\
  fs (snd (fetch_weather w)) = fs w /\
  clock (snd (fetch_weather w)) = clock w /\
  fst (fetch_weather w) =
    match http w fetch_request with
    | inl e => Raises (RequestException e)
    | inr r =>
        if ((400 <=? status_code r) && (status_code r <? 600))%Z
        then Raises (RequestException (HTTPError (status_code r)))
        else match body_json r with
             | Some data => Returns data
             | None => Raises (RequestException JSONDecodeError)
             end
    end.
Proof.
  unfold fetch_weather, bind, try_except, requests_get, raise_for_status, response_json,
    logger_info, logger_error, logger_emit, ret, raise, fetch_request.
  cbn -[url params].
  destruct (http w (HttpRequest url params 10)) as [e|r]; cbn -[url params]; [done|].
  destruct ((400 <=? status_code r) && (status_code r <? 600))%Z; cbn -[url params]; [done|].
  destruct (body_json r); cbn -[url params]; done.
Qed.





(** A fetch at ten o'clock and a transformation a minute later: the record
    carries the later time. *)
Example timestamp_is_not_the_fetch_time :
  let fetched_at := scenario_time in
  let transformed_at := Datetime 2026 1 13 10 1 0 0 in
  let w := fresh_world fetched_at (answering (Response 200 (Some scenario_raw))) in
  let w1 := snd (fetch_weather w) in
  fst (fetch_weather w) = Returns scenario_raw /\
  clock w1 = fetched_at /\
  match fst (transform_weather (handoff "fetch_weather" scenario_raw) (at_time transformed_at w1)) with
  | Returns (PDict record) => dict_lookup "timestamp" record
  | _ => None
  end = Some (PStr "2026-01-13T10:01:00").
Proof. cbv zeta. split; [|split]; vm_compute; reflexivity. Qed.

(** * Further properties of the tasks *)

(** ** The Transformer: when it returns, when it fails, what it logs *)

Lemma transform_weather_log (ctx : context) (w : world) :
  log (snd (transform_weather ctx w)) =
  (log w ++
   LogRecord INFO "Starting weather transform task..." NoArg ::
   match fst (transform_weather ctx w) with
   | Returns record => [LogRecord INFO "Transformed weather data: " (ArgValue record)]
   | Raises _ => []
   end)%list.
Proof.
  unfold transform_weather, bind.
  destruct (xcom_pull (ti ctx) "fetch_weather") as [|b|n|f|s|items|entries]; cbn;
    try (destruct (negb _); cbn; reflexivity).
  - reflexivity.
  - destruct entries as [|entry entries]; cbn; [reflexivity|].
    destruct (dict_get (entry :: entries) "current" (PDict [])); cbn;
      by rewrite <- ?app_assoc.
Qed.



(** X2: a truthy value that is not a dict, and a dict whose [current] entry
    is not a dict ([null], a number, a string, a list), make the Transformer
    raise an [AttributeError] that names the type of that value. *)
Theorem transform_weather_attribute_error (ctx : context) (w : world) :
  (truthy (xcom_pull (ti ctx) "fetch_weather") = true ->
   (forall raw, xcom_pull (ti ctx) "fetch_weather" <> PDict raw) ->
   fst (transform_weather ctx w) =
     Raises (AttributeError (type_name (xcom_pull (ti ctx) "fetch_weather")) "get")) /\
  (forall raw c,
     xcom_pull (ti ctx) "fetch_weather" = PDict raw ->
     dict_lookup "current" raw = Some c ->
     (forall current, c <> PDict current) ->
     fst (transform_weather ctx w) = Raises (AttributeError (type_name c) "get")).
Proof.
  rewrite (proj1 (transform_weather_run ctx w)). unfold transform_outcome. split.
  - intros Htruthy Hnot. rewrite Htruthy. cbn.
    destruct (xcom_pull (ti ctx) "fetch_weather"); try reflexivity.
    by destruct (Hnot entries).
  - intros raw c -> Hcur Hnot.
    destruct raw as [|entry raw]; [discriminate|].
    unfold dict_get. rewrite Hcur. cbn.
    destruct c; try reflexivity. by destruct (Hnot entries).
Qed.

Lemma transform_weather_attribute_error_witness :
  fst (transform_weather (handoff "fetch_weather" (PList [PInt 1])) (fresh_world scenario_time offline)) =
    Raises (AttributeError "list" "get") /\
  fst (transform_weather (handoff "fetch_weather" (PDict [("current", PStr "n/a")]))
         (fresh_world scenario_time offline)) =
    Raises (AttributeError "str" "get").
Proof.
  split.
  - apply (proj1 (transform_weather_attribute_error (handoff "fetch_weather" (PList [PInt 1]))
                    (fresh_world scenario_time offline))); [reflexivity|discriminate].
  - apply (proj2 (transform_weather_attribute_error
                    (handoff "fetch_weather" (PDict [("current", PStr "n/a")]))
                    (fresh_world scenario_time offline))
             [("current", PStr "n/a")] (PStr "n/a")); [reflexivity|reflexivity|discriminate].
Defined.



(** X4: the Transformer logs its start and, only when it returns, the record
    it returns; when it fails, the exception is raised without any record at
    the ERROR level. *)
Theorem transform_weather_logs (ctx : context) (w : world) :
  (forall record, fst (transform_weather ctx w) = Returns record ->
     log (snd (transform_weather ctx w)) =
       (log w ++ [ LogRecord INFO "Starting weather transform task..." NoArg;
                   LogRecord INFO "Transformed weather data: " (ArgValue record) ])%list) /\
  (forall e, fst (transform_weather ctx w) = Raises e ->
     log (snd (transform_weather ctx w)) =
       (log w ++ [ LogRecord INFO "Starting weather transform task..." NoArg ])%list) /\
  filter is_error (log (snd (transform_weather ctx w))) = filter is_error (log w).
Proof.
  pose proof (transform_weather_log ctx w) as Hlog. split; [|split].
  - intros record Hrec. by rewrite Hlog, Hrec.
  - intros e He. by rewrite Hlog, He.
  - rewrite Hlog, filter_app.
    destruct (fst (transform_weather ctx w)); cbn; by rewrite app_nil_r.
Qed.

(** ** The Fetcher: what it logs *)




(** ** From the Transformer to the Persister *)

Lemma transform_outcome_record_truthy (raw_data : pyval) (now : datetime) (record : pyval) :
  transform_outcome raw_data now = Returns record -> truthy record = true.
Proof. by intros [rest ->]%transform_outcome_returns. Qed.

(** X6: a record the Transformer returns is never taken for missing data by
    the Persister: handed that record, the Persister returns a path or stops
    on an [OSError] of the file system. *)
Theorem transformed_record_is_accepted
    (float_repr : float -> string) (ctx ctx' : context) (w w' : world) (record : pyval) :
  fst (transform_weather ctx w) = Returns record ->
  xcom_pull (ti ctx') "transform_weather" = record ->
  (exists p, fst (save_weather float_repr ctx' w') = Returns (PStr p)) \/
  (exists e, fst (save_weather float_repr ctx' w') = Raises (OSError e)).
Proof.
  intros Hrec Hpull. apply save_weather_truthy_outcomes. rewrite Hpull.
  rewrite (proj1 (transform_weather_run ctx w)) in Hrec.
  by apply transform_outcome_record_truthy in Hrec.
Qed.

Lemma transformed_record_is_accepted_witness :
  (exists p, fst (save_weather float_repr_sample (handoff "transform_weather" scenario_record)
                    (used_world scenario_time)) = Returns (PStr p)) \/
  (exists e, fst (save_weather float_repr_sample (handoff "transform_weather" scenario_record)
                    (used_world scenario_time)) = Raises (OSError e)).
Proof.
  apply (transformed_record_is_accepted float_repr_sample
           (handoff "fetch_weather" scenario_raw) _ (fresh_world scenario_time offline) _
           scenario_record); reflexivity.
Defined.

(** ** The Persister: when the file system stands in its way *)

Lemma bind_raises {A B} (c : task A) (k : A -> task B) (w w' : world) (e : exn) :
  c w = (Raises e, w') -> bind c k w = (Raises e, w').
Proof. unfold bind. by intros ->. Qed.

(** In a well-formed name space a regular file on the chain makes [mkdir]
    fail, with the error of a name that is taken or of a parent that is no
    directory. *)
Lemma mkdir_parents_exist_ok_blocked (p : path) (files : gmap path node) :
  wf_fs files ->
  (exists q, q ∈ chain p /\ is_file files q = true) ->
  exists e,
    mkdir_parents_exist_ok p files = inl e /\
    (e = FileExistsError \/ e = NotADirectoryError).
Proof.
  intros Hwf. induction p as [|name dir IH]; intros (q & Hq & Hfile).
  - inversion Hq.
  - cbn [mkdir_parents_exist_ok os_mkdir].
    destruct (node_at files dir) as [[|c]|] eqn:Hdir.
    + (* the parent is a directory, so the file is at the path itself *)
      assert (Hp : exists c, files !! (name :: dir) = Some (File c)).
      { simpl in Hq. apply elem_of_cons in Hq as [->|Hq].
        - unfold is_file, node_at in Hfile.
          destruct (files !! (name :: dir)) as [[|c]|]; try discriminate. eauto.
        - pose proof (wf_fs_chain_dirs files dir Hwf (proj2 (is_dir_node_at _ _) Hdir) q Hq) as Hd.
          unfold is_dir in Hd. unfold is_file in Hfile.
          destruct (node_at files q) as [[|c]|]; discriminate. }
      destruct Hp as [c Hp]. rewrite Hp.
      unfold is_dir, node_at. rewrite Hp. eauto.
    + (* the parent is a regular file, and nothing lies below it *)
      assert (Hp : files !! (name :: dir) = None).
      { destruct (files !! (name :: dir)) eqn:Hp; [|done].
        rewrite (Hwf name dir) in Hdir by (rewrite Hp; eauto). discriminate. }
      unfold is_dir, node_at. rewrite Hp. eauto.
    + (* the parent is missing, so the file is further up *)
      assert (Hp : files !! (name :: dir) = None).
      { destruct (files !! (name :: dir)) eqn:Hp; [|done].
        rewrite (Hwf name dir) in Hdir by (rewrite Hp; eauto). discriminate. }
      destruct IH as (e & -> & He); [|eauto].
      exists q. split; [|done].
      simpl in Hq. apply elem_of_cons in Hq as [->|Hq]; [|done].
      unfold is_file, node_at in Hfile. rewrite Hp in Hfile. discriminate.
Qed.

(** Whenever [mkdir] succeeds, the directory is there. *)
Lemma mkdir_parents_exist_ok_is_dir (p : path) (files files' : gmap path node) :
  mkdir_parents_exist_ok p files = inr files' -> is_dir files' p = true.
Proof.
  destruct p as [|name dir]; [by intros _|].
  cbn [mkdir_parents_exist_ok os_mkdir].
  destruct (node_at files dir) as [[|c]|].
  - destruct (files !! (name :: dir)) as [n|] eqn:Hp.
    + destruct (is_dir files (name :: dir)) eqn:Hd; [by intros [= <-]|discriminate].
    + intros [= <-]. apply is_dir_lookup, lookup_insert_eq.
  - destruct (is_dir files (name :: dir)) eqn:Hd; [by intros [= <-]|discriminate].
  - destruct (mkdir_parents_exist_ok dir files) as [e|files1]; [discriminate|].
    unfold mkdir_exist_ok. cbn [os_mkdir].
    destruct (node_at files1 dir) as [[|c]|]; try discriminate.
    + destruct (files1 !! (name :: dir)) as [n|] eqn:Hp.
      * destruct (is_dir files1 (name :: dir)) eqn:Hd; [by intros [= <-]|discriminate].
      * intros [= <-]. apply is_dir_lookup, lookup_insert_eq.
    + destruct (is_dir files1 (name :: dir)) eqn:Hd; [by intros [= <-]|discriminate].
Qed.

Lemma no_file_on_or_blocked (files : gmap path node) (p : path) :
  no_file_on files p \/ exists q, q ∈ chain p /\ is_file files q = true.
Proof.
  unfold no_file_on. induction (chain p) as [|q qs IH].
  - left. intros q Hq. inversion Hq.
  - destruct (is_file files q) eqn:Hq.
    + right. exists q. split; [apply elem_of_cons; by left|done].
    + destruct IH as [IH|(q' & Hq' & Hfile)].
      * left. intros q' [->|Hq']%elem_of_cons; [done|by apply IH].
      * right. exists q'. split; [apply elem_of_cons; by right|done].
Qed.

(** [mkdir] keeps a well-formed name space well formed. *)
Lemma mkdir_parents_exist_ok_wf (p : path) (files files' : gmap path node) :
  wf_fs files -> mkdir_parents_exist_ok p files = inr files' -> wf_fs files'.
Proof.
  intros Hwf Hmk. destruct (no_file_on_or_blocked files p) as [Hnf|Hblocked].
  - destruct (mkdir_parents_exist_ok_spec p files Hnf) as (files2 & Hmk2 & _ & _ & _ & Hwf').
    rewrite Hmk in Hmk2. injection Hmk2 as <-. by apply Hwf'.
  - destruct (mkdir_parents_exist_ok_blocked p files Hwf Hblocked) as (e & He & _).
    rewrite Hmk in He. discriminate.
Qed.

Lemma wf_fs_insert_file (files : gmap path node) (name content : string) (dir : path) :
  wf_fs files -> node_at files dir = Some Dir -> is_dir files (name :: dir) = false ->
  wf_fs (<[name :: dir := File content]> files).
Proof.
  intros Hwf Hdir Hnd name' dir' Hsome.
  assert (Hne : name :: dir <> dir).
  { intros Heq. apply (f_equal length) in Heq. simpl in Heq. lia. }
  destruct (decide (name :: dir = name' :: dir')) as [Heq|Hne'].
  - injection Heq as _ <-. by rewrite node_at_insert_ne.
  - rewrite lookup_insert_ne in Hsome by done.
    pose proof (Hwf name' dir' Hsome) as Hd.
    rewrite node_at_insert_ne; [done|].
    intros <-. apply is_dir_node_at in Hd. congruence.
Qed.

Section SaveWeatherFailures.

Variable float_repr : float -> string.

(** The three ways a run on a truthy value can go, by what [mkdir] and
    [open] find. *)
Lemma save_weather_mkdir_fails (ctx : context) (w : world) (e : os_error) :
  truthy (xcom_pull (ti ctx) "transform_weather") = true ->
  mkdir_parents_exist_ok output_dir (fs w) = inl e ->
  fst (save_weather float_repr ctx w) = Raises (OSError e) /\
  fs (snd (save_weather float_repr ctx w)) = fs w /\
  log (snd (save_weather float_repr ctx w)) =
    (log w ++ [LogRecord INFO "Starting weather save task..." NoArg])%list.
Proof.
  intros Htruthy Hmk. unfold save_weather. rewrite Htruthy. cbn [negb].
  erewrite bind_returns by reflexivity.
  erewrite bind_raises.
  2:{ unfold Path_mkdir. cbn [fs]. by rewrite Hmk. }
  by repeat split.
Qed.

Lemma save_weather_open_fails (ctx : context) (w : world) (files' : gmap path node) :
  truthy (xcom_pull (ti ctx) "transform_weather") = true ->
  mkdir_parents_exist_ok output_dir (fs w) = inr files' ->
  is_dir files' (weather_file_path (clock w)) = true ->
  fst (save_weather float_repr ctx w) = Raises (OSError IsADirectoryError) /\
  fs (snd (save_weather float_repr ctx w)) = files' /\
  log (snd (save_weather float_repr ctx w)) =
    (log w ++ [ LogRecord INFO "Starting weather save task..." NoArg;
                LogRecord ERROR "Error saving weather data: "
                  (ArgExn (OSError IsADirectoryError)) ])%list.
Proof.
  intros Htruthy Hmk Hd. unfold save_weather. rewrite Htruthy. cbn [negb].
  erewrite bind_returns by reflexivity.
  erewrite bind_returns by (apply Path_mkdir_returns; exact Hmk).
  erewrite bind_returns by reflexivity.
  unfold try_except.
  erewrite bind_raises.
  2:{ unfold open_w, weather_file_path, path_div in *. cbn [fs set_fs clock].
      rewrite (proj1 (is_dir_node_at _ _) (mkdir_parents_exist_ok_is_dir _ _ _ Hmk)).
      apply is_dir_lookup in Hd. unfold weather_file_name in Hd. rewrite Hd. reflexivity. }
  cbn. by rewrite <- app_assoc.
Qed.

Lemma save_weather_open_succeeds (ctx : context) (w : world) (files' : gmap path node) :
  truthy (xcom_pull (ti ctx) "transform_weather") = true ->
  mkdir_parents_exist_ok output_dir (fs w) = inr files' ->
  is_dir files' (weather_file_path (clock w)) = false ->
  fst (save_weather float_repr ctx w) = Returns (PStr (path_str (weather_file_path (clock w)))) /\
  fs (snd (save_weather float_repr ctx w)) =
    <[weather_file_path (clock w) :=
        File (iterencode float_repr 0 (xcom_pull (ti ctx) "transform_weather"))]> files' /\
  clock (snd (save_weather float_repr ctx w)) = clock w /\
  log (snd (save_weather float_repr ctx w)) =
    (log w ++ [ LogRecord INFO "Starting weather save task..." NoArg;
                LogRecord INFO "Weather data successfully saved to "
                  (ArgText (path_str (weather_file_path (clock w)))) ])%list.
Proof.
  intros Htruthy Hmk Hnd. unfold save_weather. rewrite Htruthy. cbn [negb].
  erewrite bind_returns by reflexivity.
  erewrite bind_returns by (apply Path_mkdir_returns; exact Hmk).
  erewrite bind_returns by reflexivity.
  unfold try_except.
  erewrite bind_returns.
  2:{ apply open_w_returns; cbn [fs set_fs clock].
      - apply is_dir_node_at. by apply (mkdir_parents_exist_ok_is_dir _ (fs w)).
      - exact Hnd. }
  unfold json_dump.
  erewrite bind_returns.
  2:{ apply file_write_returns. cbn [fs set_fs]. apply lookup_insert_eq. }
  cbn. rewrite insert_insert_eq. by rewrite <- app_assoc.
Qed.

End SaveWeatherFailures.

Lemma is_dir_not_file (files : gmap path node) (q : path) :
  is_dir files q = true -> is_file files q = false.
Proof. unfold is_dir, is_file. by destruct (node_at files q) as [[|c]|]. Qed.

Lemma wf_fs_no_file_on (files : gmap path node) (p : path) :
  wf_fs files -> is_dir files p = true -> no_file_on files p.
Proof. intros Hwf Hd q Hq. apply is_dir_not_file. by apply (wf_fs_chain_dirs files p). Qed.

Lemma wf_fs_used_world (t : datetime) : wf_fs (fs (used_world t)).
Proof.
  unfold used_world. cbn [fs].
  apply wf_fs_insert_file; [|reflexivity|reflexivity].
  repeat (apply wf_fs_insert_dir; [|reflexivity]). apply wf_fs_empty.
Qed.

Lemma wf_fs_blocked_world (t : datetime) : wf_fs (fs (blocked_world t)).
Proof.
  unfold blocked_world. cbn [fs].
  apply wf_fs_insert_file; [apply wf_fs_empty|reflexivity|reflexivity].
Qed.

Lemma wf_fs_squatted_world (t : datetime) : wf_fs (fs (squatted_world t)).
Proof.
  unfold squatted_world, weather_file_path, path_div. cbn [fs].
  apply wf_fs_insert_dir.
  - repeat (apply wf_fs_insert_dir; [|reflexivity]). apply wf_fs_empty.
  - apply is_dir_node_at, is_dir_lookup, lookup_insert_eq.
Qed.

(** X7: when a regular file sits where the output directory or one of its
    parents has to be, the Persister fails in [mkdir] with a
    [FileExistsError] or a [NotADirectoryError]; this happens before the
    [try] block, so that the file system is left as it was and no record at
    the ERROR level is logged. *)
Theorem save_weather_blocked_by_file
    (float_repr : float -> string) (ctx : context) (w : world) :
  truthy (xcom_pull (ti ctx) "transform_weather") = true ->
  wf_fs (fs w) ->
  (exists q, q ∈ chain output_dir /\ is_file (fs w) q = true) ->
  exists e,
    fst (save_weather float_repr ctx w) = Raises (OSError e) /\
    (e = FileExistsError \/ e = NotADirectoryError) /\
    fs (snd (save_weather float_repr ctx w)) = fs w /\
    log (snd (save_weather float_repr ctx w)) =
      (log w ++ [LogRecord INFO "Starting weather save task..." NoArg])%list.
Proof.
  intros Htruthy Hwf Hblocked.
  destruct (mkdir_parents_exist_ok_blocked output_dir (fs w) Hwf Hblocked) as (e & Hmk & He).
  destruct (save_weather_mkdir_fails float_repr ctx w e Htruthy Hmk) as (Hout & Hfs & Hlog).
  exists e. by repeat split.
Qed.

Lemma save_weather_blocked_by_file_witness :
  exists e,
    fst (save_weather float_repr_sample (handoff "transform_weather" scenario_record)
           (blocked_world scenario_time)) = Raises (OSError e) /\
    (e = FileExistsError \/ e = NotADirectoryError) /\
    fs (snd (save_weather float_repr_sample (handoff "transform_weather" scenario_record)
               (blocked_world scenario_time))) = fs (blocked_world scenario_time) /\
    log (snd (save_weather float_repr_sample (handoff "transform_weather" scenario_record)
                (blocked_world scenario_time))) =
      [LogRecord INFO "Starting weather save task..." NoArg].
Proof.
  apply (save_weather_blocked_by_file float_repr_sample
           (handoff "transform_weather" scenario_record) (blocked_world scenario_time)).
  - reflexivity.
  - apply wf_fs_blocked_world.
  - exists ["home"]. split; [|reflexivity].
    apply elem_of_cons; right. apply elem_of_cons; right. apply elem_of_cons; by left.
Defined.

(** X8: when a directory has the name of the file to be written, the
    Persister fails in [open] with an [IsADirectoryError]; the failure is
    inside the [try] block, so that it is logged once at the ERROR level and
    raised again, and in a well-formed file system nothing has changed. *)
Theorem save_weather_target_is_directory
    (float_repr : float -> string) (ctx : context) (w : world) :
  truthy (xcom_pull (ti ctx) "transform_weather") = true ->
  wf_fs (fs w) ->
  is_dir (fs w) (weather_file_path (clock w)) = true ->
  fst (save_weather float_repr ctx w) = Raises (OSError IsADirectoryError) /\
  fs (snd (save_weather float_repr ctx w)) = fs w /\
  log (snd (save_weather float_repr ctx w)) =
    (log w ++ [ LogRecord INFO "Starting weather save task..." NoArg;
                LogRecord ERROR "Error saving weather data: "
                  (ArgExn (OSError IsADirectoryError)) ])%list.
Proof.
  intros Htruthy Hwf Hd.
  assert (Hout : is_dir (fs w) output_dir = true).
  { apply (wf_fs_chain_dirs (fs w) (weather_file_path (clock w)) Hwf Hd).
    unfold weather_file_path, path_div. simpl. apply elem_of_cons; right. apply elem_of_cons; by left. }
  destruct (mkdir_parents_exist_ok_spec output_dir (fs w) (wf_fs_no_file_on _ _ Hwf Hout))
    as (files' & Hmk & _ & _ & _ & Hwf').
  destruct (Hwf' Hwf) as (_ & _ & Hsame). rewrite (Hsame Hout) in Hmk.
  by apply (save_weather_open_fails float_repr ctx w (fs w)).
Qed.

Lemma save_weather_target_is_directory_witness :
  fst (save_weather float_repr_sample (handoff "transform_weather" scenario_record)
         (squatted_world scenario_time)) = Raises (OSError IsADirectoryError) /\
  fs (snd (save_weather float_repr_sample (handoff "transform_weather" scenario_record)
             (squatted_world scenario_time))) = fs (squatted_world scenario_time) /\
  log (snd (save_weather float_repr_sample (handoff "transform_weather" scenario_record)
              (squatted_world scenario_time))) =
    [ LogRecord INFO "Starting weather save task..." NoArg;
      LogRecord ERROR "Error saving weather data: " (ArgExn (OSError IsADirectoryError)) ].
Proof.
  apply (save_weather_target_is_directory float_repr_sample
           (handoff "transform_weather" scenario_record) (squatted_world scenario_time)).
  - reflexivity.
  - apply wf_fs_squatted_world.
  - apply is_dir_lookup, lookup_insert_eq.
Defined.

(** X9: the Persister keeps the file system well formed, however the run
    ends: every entry still lies in a directory afterwards. *)
Theorem save_weather_keeps_wf (float_repr : float -> string) (ctx : context) (w : world) :
  wf_fs (fs w) -> wf_fs (fs (snd (save_weather float_repr ctx w))).
Proof.
  intros Hwf.
  destruct (truthy (xcom_pull (ti ctx) "transform_weather")) eqn:Htruthy.
  - destruct (mkdir_parents_exist_ok output_dir (fs w)) as [e|files'] eqn:Hmk.
    + destruct (save_weather_mkdir_fails float_repr ctx w e Htruthy Hmk) as (_ & -> & _). exact Hwf.
    + pose proof (mkdir_parents_exist_ok_wf _ _ _ Hwf Hmk) as Hwf'.
      destruct (is_dir files' (weather_file_path (clock w))) eqn:Hd.
      * destruct (save_weather_open_fails float_repr ctx w files' Htruthy Hmk Hd) as (_ & -> & _).
        exact Hwf'.
      * destruct (save_weather_open_succeeds float_repr ctx w files' Htruthy Hmk Hd) as (_ & -> & _).
        apply wf_fs_insert_file; [exact Hwf'| |exact Hd].
        apply is_dir_node_at. by apply (mkdir_parents_exist_ok_is_dir _ (fs w)).
  - destruct (save_weather_falsy float_repr ctx w Htruthy) as (_ & _ & -> & _). exact Hwf.
Qed.

Lemma save_weather_keeps_wf_witness :
  wf_fs (fs (snd (save_weather float_repr_sample (handoff "transform_weather" scenario_record)
                    (used_world scenario_time)))).
Proof.
  apply save_weather_keeps_wf, wf_fs_used_world.
Defined.



(** ** Reading stamps back *)

Lemma digits_value_acc (acc : N) (s : string) :
  digits_value acc s = (acc * 10 ^ N.of_nat (String.length s) + digits_value 0 s)%N.
Proof.
  revert acc. induction s as [|c s IH]; intros acc.
  - cbn. lia.
  - cbn [digits_value String.length]. rewrite (IH (10 * acc + digit_value c)%N).
    rewrite (IH (10 * 0 + digit_value c)%N).
    rewrite Nat2N.inj_succ, N.pow_succ_r'. lia.
Qed.

Lemma digit_value_pretty_N_char (d : N) : (d < 10)%N -> digit_value (pretty_N_char d) = d.
Proof.
  intros Hd.
  assert (d = 0 \/ d = 1 \/ d = 2 \/ d = 3 \/ d = 4 \/ d = 5 \/ d = 6 \/ d = 7 \/ d = 8 \/ d = 9)%N
    as Hcases by lia.
  repeat (destruct Hcases as [->|Hcases]; [reflexivity|]). by subst.
Qed.

Lemma digits_value_pretty_N_go (x : N) (s : string) :
  digits_value 0 (pretty_N_go x s) = (x * 10 ^ N.of_nat (String.length s) + digits_value 0 s)%N.
Proof.
  revert s. induction (N.lt_wf_0 x) as [x _ IH]; intros s.
  assert (x = 0 \/ 0 < x)%N as [->|Hpos] by lia.
  - rewrite pretty_N_go_0. lia.
  - rewrite pretty_N_go_step by done.
    rewrite IH by (apply N.div_lt; lia).
    cbn [digits_value String.length].
    rewrite (digits_value_acc (10 * 0 + _)%N).
    rewrite digit_value_pretty_N_char by (apply N.mod_lt; lia).
    rewrite Nat2N.inj_succ, N.pow_succ_r'.
    pose proof (N.div_mod x 10 ltac:(lia)) as Hdm.
    set (q := (x `div` 10)%N) in *. set (r := (x `mod` 10)%N) in *.
    set (P := (10 ^ N.of_nat (String.length s))%N). rewrite Hdm. lia.
Qed.

(** A number printed in decimal reads back as itself. *)
Lemma digits_value_pretty (n : N) : digits_value 0 (pretty n) = n.
Proof.
  unfold pretty, pretty_N. case_decide as Hn; [by subst|].
  rewrite digits_value_pretty_N_go. cbn. lia.
Qed.

Lemma digits_value_zeros (k : nat) (s : string) :
  digits_value 0 (zeros k +:+ s) = digits_value 0 s.
Proof. induction k as [|k IH]; [reflexivity|exact IH]. Qed.

(** ... and so does a zero-filled one, of any width. *)
Lemma digits_value_zfill (width : nat) (n : N) : digits_value 0 (zfill width n) = n.
Proof. unfold zfill. by rewrite digits_value_zeros, digits_value_pretty. Qed.

Lemma zfill_inj (width : nat) (n m : N) : zfill width n = zfill width m -> n = m.
Proof.
  intros Heq. rewrite <- (digits_value_zfill width n), <- (digits_value_zfill width m).
  by rewrite Heq.
Qed.

Lemma append_split (a a' b b' : string) :
  String.length a = String.length a' -> a +:+ b = a' +:+ b' -> a = a' /\ b = b'.
Proof.
  revert a'. induction a as [|c a IH]; intros [|c' a'] Hlen Heq; try discriminate.
  - by split.
  - injection Hlen as Hlen.
    change (String c (a +:+ b) = String c' (a' +:+ b')) in Heq.
    injection Heq as -> Heq. destruct (IH a' Hlen Heq) as [-> ->]. by split.
Qed.

Lemma two_digits_length (s : string) : two_digits s = true -> String.length s = 2.
Proof. by destruct s as [|a [|b [|c s]]]. Qed.

Lemma four_digits_length (s : string) : four_digits s = true -> String.length s = 4.
Proof. by destruct s as [|a [|b [|c [|d [|e s]]]]]. Qed.

Lemma zfill2_split (n m : N) (r r' : string) :
  (n < 100)%N -> (m < 100)%N ->
  zfill 2 n +:+ r = zfill 2 m +:+ r' -> n = m /\ r = r'.
Proof.
  intros Hn Hm Heq. apply append_split in Heq as [Heq ->].
  - split; [by apply (zfill_inj 2)|done].
  - by rewrite !two_digits_length by by apply zfill2_digits.
Qed.

Lemma zfill4_split (n m : N) (r r' : string) :
  (n < 10000)%N -> (m < 10000)%N ->
  zfill 4 n +:+ r = zfill 4 m +:+ r' -> n = m /\ r = r'.
Proof.
  intros Hn Hm Heq. apply append_split in Heq as [Heq ->].
  - split; [by apply (zfill_inj 4)|done].
  - by rewrite !four_digits_length by by apply zfill4_digits.
Qed.

Lemma separator_split (c : ascii) (r r' : string) :
  String c "" +:+ r = String c "" +:+ r' -> r = r'.
Proof. by intros [_ ->]%append_split. Qed.

Lemma strftime_to_second (t1 t2 : datetime) :
  valid_datetime t1 -> valid_datetime t2 ->
  strftime_Ymd_HMS t1 = strftime_Ymd_HMS t2 -> to_second t1 = to_second t2.
Proof.
  intros (Hy1 & Hm1 & Hd1 & Hh1 & Hn1 & Hs1 & _) (Hy2 & Hm2 & Hd2 & Hh2 & Hn2 & Hs2 & _).
  unfold strftime_Ymd_HMS, to_second. intros Heq.
  apply zfill4_split in Heq as [-> Heq]; [|lia..].
  apply zfill2_split in Heq as [-> Heq]; [|lia..].
  apply zfill2_split in Heq as [-> Heq]; [|lia..].
  apply separator_split in Heq.
  apply zfill2_split in Heq as [-> Heq]; [|lia..].
  apply zfill2_split in Heq as [-> Heq]; [|lia..].
  apply zfill_inj in Heq as ->. reflexivity.
Qed.

Lemma stamp_shape_length (s : string) : stamp_shape s = true -> String.length s = 15.
Proof.
  unfold stamp_shape.
  do 16 (destruct s as [|? s]; try discriminate). reflexivity.
Qed.

Lemma weather_file_name_to_second (t1 t2 : datetime) :
  valid_datetime t1 -> valid_datetime t2 ->
  weather_file_name t1 = weather_file_name t2 -> to_second t1 = to_second t2.
Proof.
  intros Hv1 Hv2 Heq. unfold weather_file_name in Heq.
  apply append_split in Heq as [_ Heq]; [|reflexivity].
  apply append_split in Heq as [Heq _].
  - by apply strftime_to_second.
  - by rewrite !stamp_shape_length by by apply strftime_shape.
Qed.

Lemma weather_file_path_to_second (t1 t2 : datetime) :
  valid_datetime t1 -> valid_datetime t2 ->
  weather_file_path t1 = weather_file_path t2 -> to_second t1 = to_second t2.
Proof.
  intros Hv1 Hv2 Heq. apply weather_file_name_to_second; [done..|].
  unfold weather_file_path, path_div in Heq. congruence.
Qed.

(** X11: two readings of the clock give the same file name exactly when they
    agree down to the second: runs in different seconds never share a file,
    and microseconds make no difference. *)
Theorem weather_file_path_same_iff (t1 t2 : datetime) :
  valid_datetime t1 -> valid_datetime t2 ->
  (weather_file_path t1 = weather_file_path t2 <-> to_second t1 = to_second t2).
Proof.
  intros Hv1 Hv2. split.
  - by apply weather_file_path_to_second.
  - unfold to_second. intros [= Hy Hm Hd Hh Hn Hs].
    unfold weather_file_path, weather_file_name, strftime_Ymd_HMS.
    by rewrite Hy, Hm, Hd, Hh, Hn, Hs.
Qed.

Lemma weather_file_path_same_iff_witness :
  weather_file_path scenario_time = weather_file_path (Datetime 2026 1 13 10 0 0 250000) <->
  to_second scenario_time = to_second (Datetime 2026 1 13 10 0 0 250000).
Proof.
  apply weather_file_path_same_iff; [exact valid_scenario_time|].
  unfold valid_datetime. cbn. lia.
Defined.

Lemma mkdir_parents_exist_ok_keeps (p q : path) (files files' : gmap path node) :
  wf_fs files -> mkdir_parents_exist_ok p files = inr files' ->
  is_Some (files !! q) -> files' !! q = files !! q.
Proof.
  intros Hwf Hmk Hq. destruct (no_file_on_or_blocked files p) as [Hnf|Hblocked].
  - destruct (mkdir_parents_exist_ok_spec p files Hnf) as (files2 & Hmk2 & _ & _ & Hkeep & _).
    rewrite Hmk in Hmk2. injection Hmk2 as <-. by apply Hkeep.
  - destruct (mkdir_parents_exist_ok_blocked p files Hwf Hblocked) as (e & He & _).
    rewrite Hmk in He. discriminate.
Qed.

(** X12: a file written in another second is left as it is: whatever the
    Persister does at the time on the clock, the file of a run at a time that
    differs from it before the microseconds keeps its content. *)
Theorem save_weather_keeps_earlier_file
    (float_repr : float -> string) (ctx : context) (w : world) (t : datetime) (content : string) :
  wf_fs (fs w) ->
  valid_datetime (clock w) -> valid_datetime t ->
  to_second t <> to_second (clock w) ->
  fs w !! weather_file_path t = Some (File content) ->
  fs (snd (save_weather float_repr ctx w)) !! weather_file_path t = Some (File content).
Proof.
  intros Hwf Hvw Hvt Hdiff Hfile.
  destruct (truthy (xcom_pull (ti ctx) "transform_weather")) eqn:Htruthy.
  - destruct (mkdir_parents_exist_ok output_dir (fs w)) as [e|files'] eqn:Hmk.
    + by destruct (save_weather_mkdir_fails float_repr ctx w e Htruthy Hmk) as (_ & -> & _).
    + assert (Hkept : files' !! weather_file_path t = Some (File content)).
      { rewrite (mkdir_parents_exist_ok_keeps output_dir _ (fs w)); [done..|].
        rewrite Hfile. eauto. }
      destruct (is_dir files' (weather_file_path (clock w))) eqn:Hd.
      * by destruct (save_weather_open_fails float_repr ctx w files' Htruthy Hmk Hd) as (_ & -> & _).
      * destruct (save_weather_open_succeeds float_repr ctx w files' Htruthy Hmk Hd) as (_ & -> & _).
        rewrite lookup_insert_ne; [done|].
        intros Heq. apply Hdiff. symmetry. by apply weather_file_path_to_second.
  - by destruct (save_weather_falsy float_repr ctx w Htruthy) as (_ & _ & -> & _).
Qed.

Lemma save_weather_keeps_earlier_file_witness :
  fs (snd (save_weather float_repr_sample (handoff "transform_weather" scenario_record)
             (used_world scenario_time))) !! weather_file_path (Datetime 2026 1 12 0 0 0 0) =
    Some (File "{}").
Proof.
  apply (save_weather_keeps_earlier_file float_repr_sample
           (handoff "transform_weather" scenario_record) (used_world scenario_time)).
  - apply wf_fs_used_world.
  - exact valid_scenario_time.
  - unfold valid_datetime. cbn. lia.
  - discriminate.
  - reflexivity.
Defined.

Lemma isoformat_inj (t1 t2 : datetime) :
  valid_datetime t1 -> valid_datetime t2 -> isoformat t1 = isoformat t2 -> t1 = t2.
Proof.
  intros (Hy1 & Hm1 & Hd1 & Hh1 & Hn1 & Hs1 & _) (Hy2 & Hm2 & Hd2 & Hh2 & Hn2 & Hs2 & _).
  unfold isoformat. intros Heq.
  apply zfill4_split in Heq as [Hy Heq]; [|lia..]. apply separator_split in Heq.
  apply zfill2_split in Heq as [Hm Heq]; [|lia..]. apply separator_split in Heq.
  apply zfill2_split in Heq as [Hd Heq]; [|lia..]. apply separator_split in Heq.
  apply zfill2_split in Heq as [Hh Heq]; [|lia..]. apply separator_split in Heq.
  apply zfill2_split in Heq as [Hn Heq]; [|lia..]. apply separator_split in Heq.
  apply zfill2_split in Heq as [Hs Heq]; [|lia..].
  assert (Hu : microsecond t1 = microsecond t2).
  { destruct (microsecond t1 =? 0)%N eqn:H1, (microsecond t2 =? 0)%N eqn:H2.
    - apply N.eqb_eq in H1, H2. congruence.
    - discriminate Heq.
    - discriminate Heq.
    - apply separator_split in Heq. by apply (zfill_inj 6). }
  destruct t1, t2. cbn in *. congruence.
Qed.

(** X13: the time stamp of a record tells the reading of the clock it was
    made at, microseconds included: two records of the Transformer with the
    same [timestamp] were made at the same time. *)
Theorem transform_weather_timestamp_tells_time
    (ctx1 ctx2 : context) (w1 w2 : world) (rest1 rest2 : list (string * pyval)) (stamp : pyval) :
  valid_datetime (clock w1) -> valid_datetime (clock w2) ->
  fst (transform_weather ctx1 w1) = Returns (PDict (("timestamp", stamp) :: rest1)) ->
  fst (transform_weather ctx2 w2) = Returns (PDict (("timestamp", stamp) :: rest2)) ->
  clock w1 = clock w2.
Proof.
  intros Hv1 Hv2 H1 H2.
  rewrite (proj1 (transform_weather_run ctx1 w1)) in H1.
  rewrite (proj1 (transform_weather_run ctx2 w2)) in H2.
  apply transform_outcome_returns in H1 as [r1 [= -> _]].
  apply transform_outcome_returns in H2 as [r2 [= Hiso _]].
  by apply isoformat_inj.
Qed.

Lemma transform_weather_timestamp_tells_time_witness :
  clock (fresh_world scenario_time offline) = clock (used_world scenario_time).
Proof.
  eapply (transform_weather_timestamp_tells_time
            (handoff "fetch_weather" scenario_raw) (handoff2 scenario_raw (PInt 1))
            (fresh_world scenario_time offline) (used_world scenario_time)).
  - exact valid_scenario_time.
  - exact valid_scenario_time.
  - reflexivity.
  - reflexivity.
Defined.

(** ** Runs of the DAG *)



Lemma execute_raises (op : operator) (xcoms : gmap string pyval) (w w' : world) (e : exn) :
  python_callable op (Context (TaskInstance xcoms)) w = (Raises e, w') ->
  execute op xcoms w = (Raises e, w').
Proof. intros Hrun. unfold execute. by erewrite bind_raises by exact Hrun. Qed.


Lemma run_task_retries (n : nat) (elapse : world -> world) (op : operator)
    (xcoms : gmap string pyval) (w w' : world) (e : exn) :
  execute op xcoms (elapse w) = (Raises e, w') ->
  run_task (S n) elapse op xcoms w = run_task n elapse op xcoms w'.
Proof. intros Hrun. cbn. by rewrite Hrun. Qed.

Lemma run_task_gives_up (elapse : world -> world) (op : operator)
    (xcoms : gmap string pyval) (w w' : world) (e : exn) :
  execute op xcoms (elapse w) = (Raises e, w') ->
  run_task 0 elapse op xcoms w = (Raises e, w').
Proof. intros Hrun. cbn. by rewrite Hrun. Qed.


Lemma fetch_weather_raises (w : world) (e : request_exception) :
  http w fetch_request = inl e ->
  fetch_weather w = (Raises (RequestException e), snd (fetch_weather w)).
Proof.
  intros He. rewrite (surjective_pairing (fetch_weather w)) at 1. f_equal.
  by rewrite (proj2 (proj2 (proj2 (fetch_weather_run w)))), He.
Qed.







(** X15: when the network fails at every try, the run ends at the Fetcher:
    with one retry it has sent two requests, it fails with the network's
    exception, and since the Transformer and the Persister never start the
    file system is as it was. *)
Theorem dag_run_fetch_fails
    (float_repr : float -> string) (elapse : world -> world) (w : world) (e : request_exception) :
  (forall w', fs (elapse w') = fs w') ->
  (forall w', sent (elapse w') = sent w') ->
  (forall w', http (elapse w') fetch_request = inl e) ->
  fst (dag_run float_repr elapse w) = Raises (RequestException e) /\
  fs (snd (dag_run float_repr elapse w)) = fs w /\
  sent (snd (dag_run float_repr elapse w)) = (sent w ++ [fetch_request; fetch_request])%list.
Proof.
  intros Hfs Hsent Hnet. unfold dag_run. cbn [retries default_args].
  erewrite bind_raises.
  2:{ erewrite run_task_retries.
      2:{ apply execute_raises. cbn [python_callable task_fetch].
          apply fetch_weather_raises, Hnet. }
      eapply run_task_gives_up. apply execute_raises. cbn [python_callable task_fetch].
      apply fetch_weather_raises, Hnet. }
  cbn [fst snd]. split; [reflexivity|]. split.
  - rewrite (proj1 (proj2 (fetch_weather_run _))), Hfs.
    by rewrite (proj1 (proj2 (fetch_weather_run _))), Hfs.
  - rewrite (proj1 (fetch_weather_run _)), Hsent.
    rewrite (proj1 (fetch_weather_run _)), Hsent. by rewrite <- app_assoc.
Qed.

Lemma dag_run_fetch_fails_witness :
  fst (dag_run float_repr_sample (steady (inl Timeout)) (used_world scenario_time)) =
    Raises (RequestException Timeout) /\
  fs (snd (dag_run float_repr_sample (steady (inl Timeout)) (used_world scenario_time))) =
    fs (used_world scenario_time) /\
  sent (snd (dag_run float_repr_sample (steady (inl Timeout)) (used_world scenario_time))) =
    (sent (used_world scenario_time) ++ [fetch_request; fetch_request])%list.
Proof.
  apply (dag_run_fetch_fails float_repr_sample (steady (inl Timeout)) (used_world scenario_time));
    reflexivity.
Defined.





(** ** When the Persister returns *)



(** ** The characters of the file *)














